(** * A shallow embedding of the [defender] guard crate

    The crate provides a single-slot value cell ([State]) behind a
    read/write lock, wrapped by a blocking guard ([SyncGuard], src/sync.rs)
    and a cooperative guard ([AsyncGuard], src/async.rs) that share the
    same timeout configuration ([GuardConfig], src/config.rs).

    Modelling conventions:
    - an [Arc<T>] handed out by an observation is modelled by the value it
      points to (the handle is read-only and shares the stored value);
    - [std::time::Instant] is an integer instant (a clock reading) and
      [std::time::Duration] a natural number of clock units;
    - [Instant::elapsed] is [now.saturating_duration_since(t0)], so it is
      [Z.to_N (now - t0)];
    - the lock-protected cell is a plain field, read or replaced in one
      step (each method of the source holds the lock for its whole body);
      the clock and the states read by a polling loop come from the
      environment as explicit inputs. *)

From Stdlib Require Import ZArith NArith List Bool Lia.
Import ListNotations.

Open Scope Z_scope.

(** ** src/state.rs *)

Module State.
Inductive t (T : Type) : Type :=
  | UnSet : t T
  | Value : T -> t T
  | Killed : t T.
  Arguments UnSet {T}.
  Arguments Value {T} _.
  Arguments Killed {T}.

  (** [impl Default for State<T>] *)
Definition default {T : Type} : t T := UnSet.
End State.

(** ** src/error.rs *)

Module GuardError.
Inductive t : Type :=
  | Timeout
  | Killed
  | UnableToKilled.
End GuardError.

(** ** src/config.rs *)

Module Timeout.
Inductive t : Type :=
  | Instant
  | Duration : N -> t
  | Infinite.
End Timeout.

Record GuardConfig : Type := { timeout : Timeout.t }.

(** [impl Default for GuardConfig] *)
Definition GuardConfig_default : GuardConfig :=
  {| timeout := Timeout.Infinite |}.

(** [Result<T, E>] and [Poll<T>] of the Rust standard library. *)
Inductive Result (T E : Type) : Type :=
| Ok : T -> Result T E
| Err : E -> Result T E.
Arguments Ok {T E} _.
Arguments Err {T E} _.

Inductive Poll (T : Type) : Type :=
| Ready : T -> Poll T
| Pending : Poll T.
Arguments Ready {T} _.
Arguments Pending {T}.

(** [Instant::elapsed], saturating at zero. *)
Definition elapsed (t0 now : Z) : N := Z.to_N (now - t0).

(** ** src/sync.rs *)

Module SyncGuard.
Section WithT.
  Context {T : Type}.

Record t : Type := mk { value : State.t T; config : GuardConfig }.

  (** [impl Default for SyncGuard<T>] *)
Definition default : t := mk State.default GuardConfig_default.

  (** [SyncGuard::new] *)
Definition new (config : GuardConfig) : t := mk State.default config.

  (** [SyncGuard::set] *)
Definition set (g : t) (v : T) : Result unit GuardError.t * t :=
    match value g with
    | State.Killed => (Err GuardError.Killed, g)
    | _ => (Ok tt, mk (State.Value v) (config g))
    end.

  (** [SyncGuard::kill] *)
Definition kill (g : t) : Result unit GuardError.t * t :=
    match value g with
    | State.Value _ => (Err GuardError.UnableToKilled, g)
    | _ => (Ok tt, mk State.Killed (config g))
    end.

  (** [SyncGuard::reset] *)
Definition reset (g : t) : Result (option T) GuardError.t * t :=
    match value g with
    | State.UnSet | State.Killed => (Ok None, g)
    | State.Value v => (Ok (Some v), mk State.UnSet (config g))
    end.

  (** The [Timeout::Infinite] loop of [SyncGuard::wait]; [reads] are the
      states of the shared cell seen by the successive [read()]s (other
      clones may change the cell between two reads).  [None]: the loop is
      still spinning when [reads] is exhausted. *)
Fixpoint wait_infinite (reads : list (State.t T))
    : option (Result T GuardError.t) :=
    match reads with
    | [] => None
    | s :: rest =>
        match s with
        | State.Value v => Some (Ok v)
        | State.UnSet => wait_infinite rest
        | State.Killed => Some (Err GuardError.Killed)
        end
    end.

  (** The [Timeout::Duration] loop of [SyncGuard::wait]: each iteration is
      the clock reading of the [while] condition and the state read in its
      body; [t0] is the instant taken when the call began. *)
Fixpoint wait_duration (timeout : N) (t0 : Z) (iters : list (Z * State.t T))
    : option (Result T GuardError.t) :=
    match iters with
    | [] => None
    | (now, s) :: rest =>
        if (elapsed t0 now <=? timeout)%N then
          match s with
          | State.Value v => Some (Ok v)
          | State.UnSet => wait_duration timeout t0 rest
          | State.Killed => Some (Err GuardError.Killed)
          end
        else Some (Err GuardError.Timeout)
    end.

  (** [SyncGuard::wait].  [start] is [Instant::now()] at the start of the
      call; [iters] the iterations the environment schedules. *)
Definition wait (g : t) (start : Z) (iters : list (Z * State.t T))
    : option (Result T GuardError.t) :=
    match timeout (config g) with
    | Timeout.Instant =>
        match iters with
        | [] => None
        | (_, s) :: _ =>
            Some match s with
                 | State.Value v => Ok v
                 | State.UnSet => Err GuardError.Timeout
                 | State.Killed => Err GuardError.Killed
                 end
        end
    | Timeout.Infinite => wait_infinite (map snd iters)
    | Timeout.Duration d => wait_duration d start iters
    end.
End WithT.
Arguments t : clear implicits.
End SyncGuard.

(** ** src/async.rs: the guard and its mutating methods *)

Module AsyncGuard.
Section WithT.
  Context {T : Type}.

  (** [t0] is the shared deadline marker [Arc<Mutex<Option<Instant>>>]. *)
Record t : Type :=
    mk { value : State.t T; config : GuardConfig; t0 : option Z }.

  (** [impl Default for AsyncGuard<T>] *)
Definition default : t := mk State.default GuardConfig_default None.

  (** [AsyncGuard::new] *)
Definition new (config : GuardConfig) : t :=
    mk (value default) config (t0 default).

  (** [AsyncGuard::set] *)
Definition set (g : t) (v : T) : Result unit GuardError.t * t :=
    match value g with
    | State.Killed => (Err GuardError.Killed, g)
    | _ => (Ok tt, mk (State.Value v) (config g) (t0 g))
    end.

  (** [AsyncGuard::kill] *)
Definition kill (g : t) : Result unit GuardError.t * t :=
    match value g with
    | State.Value _ => (Err GuardError.UnableToKilled, g)
    | _ => (Ok tt, mk State.Killed (config g) (t0 g))
    end.

  (** [AsyncGuard::reset] *)
Definition reset (g : t) : Result (option T) GuardError.t * t :=
    match value g with
    | State.UnSet | State.Killed => (Ok None, g)
    | State.Value v => (Ok (Some v), mk State.UnSet (config g) (t0 g))
    end.

  (** [impl Future for &AsyncGuard<T>]: one call of [poll].  [now_init] is
      the [Instant::now()] stored when the marker is empty, [now_check] the
      clock reading of [t0.elapsed()].  The boolean records whether
      [cx.waker().wake_by_ref()] was called. *)
Definition poll (g : t) (now_init now_check : Z)
    : Poll (Result T GuardError.t) * bool * t :=
    match timeout (config g) with
    | Timeout.Instant =>
        match value g with
        | State.Value v => (Ready (Ok v), false, g)
        | State.UnSet => (Ready (Err GuardError.Timeout), false, g)
        | State.Killed => (Ready (Err GuardError.Killed), false, g)
        end
    | Timeout.Infinite =>
        match value g with
        | State.Value v => (Ready (Ok v), false, g)
        | State.Killed => (Ready (Err GuardError.Killed), false, g)
        | State.UnSet => (Pending, true, g)
        end
    | Timeout.Duration timeout =>
        let g := match t0 g with
                 | None => mk (value g) (config g) (Some now_init)
                 | Some _ => g
                 end in
        match t0 g with
        | Some m =>
            if (elapsed m now_check <=? timeout)%N then
              match value g with
              | State.Value v => (Ready (Ok v), false, g)
              | State.Killed => (Ready (Err GuardError.Killed), false, g)
              | State.UnSet => (Pending, false, g)
              end
            else (Ready (Err GuardError.Timeout), false, g)
        | None => (Pending, false, g)
        end
    end.
End WithT.
Arguments t : clear implicits.
End AsyncGuard.

(** ** src/async.rs: the [Timeout::Duration] branch of [poll], step by step

    Clones of an [AsyncGuard] share the cell and the marker, and may be
    polled from several tasks or threads at once.  The branch takes the
    marker's mutex three separate times:
    {v
      if self.t0.lock().is_none() {              // [Start]
          let t0 = std::time::Instant::now();    // [Stamp]
          *self.t0.lock().deref_mut() = Some(t0);  // [Store]
      }
      match self.t0.lock().deref() { ... }       // [Decide]
    v}
    Each step below is one of these atomic actions of one poll. *)

Module Interleaved.
Section WithT.
  Context {T : Type}.

  (** The memory shared by all clones, and the clock. *)
Record store : Type :=
    mk_store { cell : State.t T; marker : option Z; clock : Z }.

  (** Where one poll of the [Timeout::Duration] branch is. *)
Inductive pc : Type :=
  | Start
  | Stamp
  | Store (t0 : Z)
  | Decide
  | Done (r : Poll (Result T GuardError.t)).

Definition step_poll (timeout : N) (st : store) (p : pc) : store * pc :=
    match p with
    | Start =>
        match marker st with
        | None => (st, Stamp)
        | Some _ => (st, Decide)
        end
    | Stamp => (st, Store (clock st))
    | Store t0 => (mk_store (cell st) (Some t0) (clock st), Decide)
    | Decide =>
        (st,
         Done match marker st with
              | Some m =>
                  if (elapsed m (clock st) <=? timeout)%N then
                    match cell st with
                    | State.Value v => Ready (Ok v)
                    | State.Killed => Ready (Err GuardError.Killed)
                    | State.UnSet => Pending
                    end
                  else Ready (Err GuardError.Timeout)
              | None => Pending
              end)
    | Done r => (st, Done r)
    end.

  (** What the scheduler does next: run one step of poll [i], let the
      clock advance, or let another clone call [set]. *)
Inductive event : Type :=
  | Run (i : nat)
  | Tick (dt : Z)
  | SetValue (v : T).

Fixpoint replace_nth (l : list pc) (i : nat) (x : pc) : list pc :=
    match l, i with
    | [], _ => []
    | _ :: l, O => x :: l
    | y :: l, S i => y :: replace_nth l i x
    end.

Definition exec_event (timeout : N) (st : store) (ps : list pc) (e : event)
    : store * list pc :=
    match e with
    | Run i =>
        match nth_error ps i with
        | Some p =>
            let '(st', p') := step_poll timeout st p in
            (st', replace_nth ps i p')
        | None => (st, ps)
        end
    | Tick dt => (mk_store (cell st) (marker st) (clock st + dt), ps)
    | SetValue v =>
        (** [AsyncGuard::set] on the shared cell. *)
        match cell st with
        | State.Killed => (st, ps)
        | _ => (mk_store (State.Value v) (marker st) (clock st), ps)
        end
    end.

  (** Runs a schedule and records the marker after every event. *)
Fixpoint exec (timeout : N) (st : store) (ps : list pc) (es : list event)
    : store * list pc * list (option Z) :=
    match es with
    | [] => (st, ps, [])
    | e :: es =>
        let '(st', ps') := exec_event timeout st ps e in
        let '(st'', ps'', ms) := exec timeout st' ps' es in
        (st'', ps'', marker st' :: ms)
    end.
End WithT.
End Interleaved.

(** ** Sanity checks of the embedding on concrete inputs *)

Example sync_set_then_wait_instant :
  let g := snd (SyncGuard.set (SyncGuard.new {| timeout := Timeout.Instant |}) 42) in
  SyncGuard.value g = State.Value 42.
Proof. reflexivity. Qed.

Example sync_kill_after_set :
  fst (SyncGuard.kill (snd (SyncGuard.set (@SyncGuard.default Z) 42)))
  = Err GuardError.UnableToKilled.
Proof. reflexivity. Qed.

Example async_reset_after_set :
  fst (AsyncGuard.reset (snd (AsyncGuard.set (@AsyncGuard.default Z) 42)))
  = Ok (Some 42).
Proof. reflexivity. Qed.

(** ** The mutating methods: [kill], [set], [reset] *)

Section Mutators.
  Context {T : Type}.

  (** C4: on either flavor, [kill()] fails with [UnableToKilled] and leaves
      the guard unchanged exactly when the cell holds a [Value]; on [UnSet]
      or [Killed] it succeeds and the cell becomes [Killed]. *)
Theorem kill_spec :
    (forall g : SyncGuard.t T,
        match SyncGuard.value g with
        | State.Value _ => SyncGuard.kill g = (Err GuardError.UnableToKilled, g)
        | _ => SyncGuard.kill g = (Ok tt, SyncGuard.mk State.Killed (SyncGuard.config g))
        end
        /\ (fst (SyncGuard.kill g) = Err GuardError.UnableToKilled
            <-> exists v, SyncGuard.value g = State.Value v)) /\
    (forall g : AsyncGuard.t T,
        match AsyncGuard.value g with
        | State.Value _ => AsyncGuard.kill g = (Err GuardError.UnableToKilled, g)
        | _ => AsyncGuard.kill g =
                 (Ok tt, AsyncGuard.mk State.Killed (AsyncGuard.config g) (AsyncGuard.t0 g))
        end
        /\ (fst (AsyncGuard.kill g) = Err GuardError.UnableToKilled
            <-> exists v, AsyncGuard.value g = State.Value v)).
  Proof.
    split; intros g; destruct g as [s]; destruct s as [|v|]; cbn;
      repeat split; try reflexivity; try (intros [? H]; discriminate H);
      try discriminate; eauto.
  Qed.

  (** C5: on either flavor, [set(v)] fails with [Killed] and leaves the
      guard unchanged when the cell is [Killed]; otherwise it succeeds and
      the cell becomes [Value v], whatever value it held before. *)
Theorem set_spec :
    (forall (g : SyncGuard.t T) (v : T),
        match SyncGuard.value g with
        | State.Killed => SyncGuard.set g v = (Err GuardError.Killed, g)
        | _ => SyncGuard.set g v = (Ok tt, SyncGuard.mk (State.Value v) (SyncGuard.config g))
        end) /\
    (forall (g : AsyncGuard.t T) (v : T),
        match AsyncGuard.value g with
        | State.Killed => AsyncGuard.set g v = (Err GuardError.Killed, g)
        | _ => AsyncGuard.set g v =
                 (Ok tt, AsyncGuard.mk (State.Value v) (AsyncGuard.config g) (AsyncGuard.t0 g))
        end).
  Proof.
    split; intros g v; destruct g as [s]; destruct s; reflexivity.
  Qed.

  (** C6 (as stated): [set(v)] followed by [reset()] returns [Some v]. *)
Theorem set_reset_roundtrip_killed_counterexample :
    let g := SyncGuard.mk (T := Z) State.Killed GuardConfig_default in
    fst (SyncGuard.reset (snd (SyncGuard.set g 7))) = Ok None /\
    fst (SyncGuard.reset (snd (SyncGuard.set g 7))) <> Ok (Some 7).
  Proof. split; [reflexivity | discriminate]. Qed.

  (** C6 (amended): on either flavor, when the cell is not [Killed],
      [set(v)] followed by [reset()] returns [Some v] and leaves the cell
      [UnSet]; [reset()] on an [UnSet] or [Killed] cell returns [None] and
      leaves the guard unchanged; on a [Killed] cell, [set(v)] fails with
      [Killed] and the following [reset()] returns [None], the guard
      staying unchanged. *)
Theorem set_reset_roundtrip :
    (forall (g : SyncGuard.t T) (v : T),
        SyncGuard.value g <> State.Killed ->
        SyncGuard.reset (snd (SyncGuard.set g v))
        = (Ok (Some v), SyncGuard.mk State.UnSet (SyncGuard.config g))) /\
    (forall (g : AsyncGuard.t T) (v : T),
        AsyncGuard.value g <> State.Killed ->
        AsyncGuard.reset (snd (AsyncGuard.set g v))
        = (Ok (Some v), AsyncGuard.mk State.UnSet (AsyncGuard.config g) (AsyncGuard.t0 g))) /\
    (forall g : SyncGuard.t T,
        SyncGuard.value g = State.UnSet \/ SyncGuard.value g = State.Killed ->
        SyncGuard.reset g = (Ok None, g)) /\
    (forall g : AsyncGuard.t T,
        AsyncGuard.value g = State.UnSet \/ AsyncGuard.value g = State.Killed ->
        AsyncGuard.reset g = (Ok None, g)) /\
    (forall (g : SyncGuard.t T) (v : T),
        SyncGuard.value g = State.Killed ->
        SyncGuard.set g v = (Err GuardError.Killed, g) /\
        SyncGuard.reset (snd (SyncGuard.set g v)) = (Ok None, g)) /\
    (forall (g : AsyncGuard.t T) (v : T),
        AsyncGuard.value g = State.Killed ->
        AsyncGuard.set g v = (Err GuardError.Killed, g) /\
        AsyncGuard.reset (snd (AsyncGuard.set g v)) = (Ok None, g)).
  Proof.
    refine (conj _ (conj _ (conj _ (conj _ (conj _ _))))).
    - intros [s c] v H; destruct s; cbn in *; congruence.
    - intros [s c m] v H; destruct s; cbn in *; congruence.
    - intros [s c] [H|H]; cbn in *; subst; reflexivity.
    - intros [s c m] [H|H]; cbn in *; subst; reflexivity.
    - intros [s c] v H; cbn in *; subst; split; reflexivity.
    - intros [s c m] v H; cbn in *; subst; split; reflexivity.
  Qed.

  (** C9: for the same cell state, configuration and argument, the
      blocking and the cooperative guard's [set], [kill] and [reset] return
      the same result and leave the same cell (the cooperative guard's
      deadline marker is untouched by them). *)
Theorem sync_async_mutators_agree :
    forall (s : State.t T) (c : GuardConfig) (m : option Z) (v : T),
      let gs := SyncGuard.mk s c in
      let ga := AsyncGuard.mk s c m in
      (fst (SyncGuard.set gs v) = fst (AsyncGuard.set ga v) /\
       SyncGuard.value (snd (SyncGuard.set gs v)) = AsyncGuard.value (snd (AsyncGuard.set ga v)) /\
       AsyncGuard.t0 (snd (AsyncGuard.set ga v)) = m) /\
      (fst (SyncGuard.kill gs) = fst (AsyncGuard.kill ga) /\
       SyncGuard.value (snd (SyncGuard.kill gs)) = AsyncGuard.value (snd (AsyncGuard.kill ga)) /\
       AsyncGuard.t0 (snd (AsyncGuard.kill ga)) = m) /\
      (fst (SyncGuard.reset gs) = fst (AsyncGuard.reset ga) /\
       SyncGuard.value (snd (SyncGuard.reset gs)) = AsyncGuard.value (snd (AsyncGuard.reset ga)) /\
       AsyncGuard.t0 (snd (AsyncGuard.reset ga)) = m).
  Proof.
    intros s c m v; destruct s; repeat split.
  Qed.
End Mutators.

(** ** Observation under [Timeout::Instant] and [Timeout::Infinite] *)

Section Observe.
  Context {T : Type}.

  (** C7: under [Timeout::Instant], [SyncGuard::wait] decides on the first
      state it reads, whatever the cell does afterwards, and one [poll] of
      the cooperative guard is always [Ready] on the cell it reads, without
      asking to be woken. *)
Theorem instant_reads_once :
    (forall (c : State.t T) (start now : Z) (s : State.t T) (rest : list (Z * State.t T)),
        SyncGuard.wait (SyncGuard.mk c {| timeout := Timeout.Instant |}) start ((now, s) :: rest)
        = Some match s with
               | State.Value v => Ok v
               | State.UnSet => Err GuardError.Timeout
               | State.Killed => Err GuardError.Killed
               end) /\
    (forall (s : State.t T) (m : option Z) (now_init now_check : Z),
        let g := AsyncGuard.mk s {| timeout := Timeout.Instant |} m in
        AsyncGuard.poll g now_init now_check
        = (Ready match s with
                 | State.Value v => Ok v
                 | State.UnSet => Err GuardError.Timeout
                 | State.Killed => Err GuardError.Killed
                 end, false, g)).
  Proof. split; intros; destruct s; reflexivity. Qed.

Lemma wait_infinite_outcome :
    forall reads : list (State.t T),
      SyncGuard.wait_infinite reads = None \/
      (exists v, SyncGuard.wait_infinite reads = Some (Ok v)) \/
      SyncGuard.wait_infinite reads = Some (Err GuardError.Killed).
  Proof.
    induction reads as [|s rest IH]; cbn; [now left|].
    destruct s; eauto.
  Qed.

  (** C8: both guards are built with [Timeout::Infinite] by default; under
      it [SyncGuard::wait] retries on [UnSet], returns the value on
      [Value], fails with [Killed] on [Killed], and so can only be still
      spinning, return a value, or fail with [Killed]: never [Timeout]. *)
Theorem infinite_never_times_out :
    timeout GuardConfig_default = Timeout.Infinite /\
    SyncGuard.config (@SyncGuard.default T) = GuardConfig_default /\
    AsyncGuard.config (@AsyncGuard.default T) = GuardConfig_default /\
    (forall (c : State.t T) (start now : Z) (iters : list (Z * State.t T)),
        let g := SyncGuard.mk c GuardConfig_default in
        SyncGuard.wait g start ((now, State.UnSet) :: iters) = SyncGuard.wait g start iters /\
        (forall v, SyncGuard.wait g start ((now, State.Value v) :: iters) = Some (Ok v)) /\
        SyncGuard.wait g start ((now, State.Killed) :: iters) = Some (Err GuardError.Killed)) /\
    (forall (c : State.t T) (start : Z) (iters : list (Z * State.t T)),
        let g := SyncGuard.mk c GuardConfig_default in
        (SyncGuard.wait g start iters = None \/
         (exists v, SyncGuard.wait g start iters = Some (Ok v)) \/
         SyncGuard.wait g start iters = Some (Err GuardError.Killed)) /\
        SyncGuard.wait g start iters <> Some (Err GuardError.Timeout)).
  Proof.
    split; [reflexivity|]; split; [reflexivity|]; split; [reflexivity|].
    split.
    - intros c start now iters; repeat split.
    - intros c start iters; cbn -[map].
      destruct (wait_infinite_outcome (map snd iters)) as [H|[[v H]|H]];
        rewrite H; split; eauto; discriminate.
  Qed.
End Observe.

(** ** The cooperative guard under [Timeout::Duration] *)

Section Bounded.
  Context {T : Type}.

  (** C10: under [Timeout::Duration], the marker matched by the final
      [match] of [poll] is always [Some] (the one already stored, or the
      instant just stored), so the outcome is the one of its [Some] arms and
      the [None => Poll::Pending] arm is never taken. *)
Theorem poll_bounded_marker_some :
    forall (s : State.t T) (d : N) (m : option Z) (now_init now_check : Z),
      let g := AsyncGuard.mk s {| timeout := Timeout.Duration d |} m in
      let m0 := match m with Some x => x | None => now_init end in
      AsyncGuard.t0 (snd (AsyncGuard.poll g now_init now_check)) = Some m0 /\
      fst (fst (AsyncGuard.poll g now_init now_check))
      = if (elapsed m0 now_check <=? d)%N then
          match s with
          | State.Value v => Ready (Ok v)
          | State.Killed => Ready (Err GuardError.Killed)
          | State.UnSet => Pending
          end
        else Ready (Err GuardError.Timeout).
  Proof.
    intros s d m now_init now_check; cbn.
    destruct m as [x|]; cbn;
      destruct (elapsed _ now_check <=? d)%N; destruct s; split; reflexivity.
  Qed.

  (** A poll within the budget on an [UnSet] cell returns [Pending]
      without waking its waker, whatever the marker. *)
Lemma poll_bounded_unset_no_wake :
    forall (d : N) (m : option Z) (now_init now_check : Z),
      let g := AsyncGuard.mk (@State.UnSet T) {| timeout := Timeout.Duration d |} m in
      (elapsed (match m with Some x => x | None => now_init end) now_check <=? d)%N = true ->
      fst (AsyncGuard.poll g now_init now_check) = (Pending, false).
  Proof.
    intros d [x|] now_init now_check; cbn; intros H; rewrite H; reflexivity.
  Qed.

  (** Sequentially, the marker is never changed once it is set: not by a
      poll, nor by [set], [kill] or [reset]. *)
Lemma marker_set_once :
    forall (g : AsyncGuard.t T) (x : Z),
      AsyncGuard.t0 g = Some x ->
      (forall now_init now_check,
          AsyncGuard.t0 (snd (AsyncGuard.poll g now_init now_check)) = Some x) /\
      (forall v, AsyncGuard.t0 (snd (AsyncGuard.set g v)) = Some x) /\
      AsyncGuard.t0 (snd (AsyncGuard.kill g)) = Some x /\
      AsyncGuard.t0 (snd (AsyncGuard.reset g)) = Some x.
  Proof.
    intros [s [tm] m] x H; cbn in H; subst m.
    repeat split; intros; destruct s; destruct tm; cbn;
      repeat match goal with |- context [if ?b then _ else _] => destruct b end;
      reflexivity.
  Qed.

  (** Sequentially, once the elapsed time since the marker exceeds the
      budget, a poll reports [Timeout] whatever the cell holds. *)
Lemma poll_after_deadline :
    forall (s : State.t T) (d : N) (x now_init now_check : Z),
      (d < elapsed x now_check)%N ->
      fst (fst (AsyncGuard.poll
                  (AsyncGuard.mk s {| timeout := Timeout.Duration d |} (Some x))
                  now_init now_check))
      = Ready (Err GuardError.Timeout).
  Proof.
    intros s d x now_init now_check H; cbn.
    replace (elapsed x now_check <=? d)%N with false; [reflexivity|].
    symmetry; apply N.leb_gt; exact H.
  Qed.

  (** One poll run alone, step after step, in the interleaving model is the
      sequential [poll]. *)
Lemma interleaved_alone_is_poll :
    forall (s : State.t T) (d : N) (m : option Z) (now : Z),
      let st := Interleaved.mk_store s m now in
      let g := AsyncGuard.mk s {| timeout := Timeout.Duration d |} m in
      let steps := match m with Some _ => 2%nat | None => 4%nat end in
      Interleaved.step_poll d st Interleaved.Start = (st, match m with
                                                      | Some _ => Interleaved.Decide
                                                      | None => Interleaved.Stamp end) /\
      snd (Nat.iter steps (fun p => Interleaved.step_poll d (fst p) (snd p))
             (st, Interleaved.Start))
      = Interleaved.Done (fst (fst (AsyncGuard.poll g now now))).
  Proof.
    intros s d [x|] now; cbn; split; try reflexivity;
      destruct (elapsed _ now <=? d)%N; destruct s; reflexivity.
  Qed.
End Bounded.

(** C1: under [Timeout::Infinite] a poll on an [UnSet] cell wakes its own
    waker before returning [Pending]; under [Timeout::Duration 50] the
    first poll on an [UnSet] cell (elapsed time 0, within the budget)
    returns [Pending] without waking it. *)
Theorem poll_bounded_pending_without_wake :
  AsyncGuard.poll (AsyncGuard.new (T := Z) {| timeout := Timeout.Infinite |}) 0 0
  = (Pending, true, AsyncGuard.new {| timeout := Timeout.Infinite |}) /\
  AsyncGuard.poll (AsyncGuard.new (T := Z) {| timeout := Timeout.Duration 50 |}) 0 0
  = (Pending, false,
     AsyncGuard.mk State.UnSet {| timeout := Timeout.Duration 50 |} (Some 0)).
Proof. split; reflexivity. Qed.

(** The schedule of the C2 counterexample: polls 0 and 1 both find the
    marker empty; poll 0 stores instant 0 and, at instant 100, reports
    [Timeout]; poll 1 reads the clock only at instant 120 and overwrites the
    marker; another clone sets the value 7; poll 2, started at 130, and
    poll 1 then see 10 units elapsed and return the value. *)
Definition race_schedule : list (@Interleaved.event Z) :=
  [Interleaved.Run 0; Interleaved.Run 1; Interleaved.Run 0; Interleaved.Run 0;
   Interleaved.Tick 100; Interleaved.Run 0;
   Interleaved.Tick 20; Interleaved.Run 1; Interleaved.Run 1;
   Interleaved.SetValue 7; Interleaved.Tick 10;
   Interleaved.Run 2; Interleaved.Run 2; Interleaved.Run 1].

(** C2: with [Timeout::Duration 50] and three concurrent polls of clones of
    one guard, the marker first set to instant 0 is later overwritten with
    instant 120, and after poll 0 has reported [Timeout] (at instant 100)
    polls 1 and 2 return the value. *)
Theorem marker_overwritten_by_racing_poll :
  Interleaved.exec 50 (Interleaved.mk_store State.UnSet None 0)
    [Interleaved.Start; Interleaved.Start; Interleaved.Start] race_schedule
  = (Interleaved.mk_store (State.Value 7) (Some 120) 130,
     [Interleaved.Done (Ready (Err GuardError.Timeout));
      Interleaved.Done (Ready (Ok 7));
      Interleaved.Done (Ready (Ok 7))],
     [None; None; None; Some 0; Some 0; Some 0; Some 0; Some 0;
      Some 120; Some 120; Some 120; Some 120; Some 120; Some 120]).
Proof. vm_compute. reflexivity. Qed.

(** ** The blocking guard under [Timeout::Duration] *)

Lemma elapsed_leb (t0 now : Z) (d : N) :
  (elapsed t0 now <=? d)%N = true <-> now - t0 <= Z.of_N d.
Proof.
  unfold elapsed; rewrite N.leb_le.
  destruct (Z.le_gt_cases 0 (now - t0)) as [H|H].
  - rewrite N2Z.inj_le, Z2N.id by exact H; reflexivity.
  - destruct (now - t0) as [|p|p]; lia.
Qed.

Section Blocking.
  Context {T : Type}.

  (** Iterations that re-read an [UnSet] cell within the budget are
      skipped over by the loop. *)
Lemma wait_duration_skip :
    forall (d : N) (start : Z) (pre rest : list (Z * State.t T)),
      Forall (fun it => fst it - start <= Z.of_N d /\ snd it = State.UnSet) pre ->
      SyncGuard.wait_duration d start (pre ++ rest)
      = SyncGuard.wait_duration d start rest.
  Proof.
    intros d start pre rest H; induction H as [|[now s] pre [Hle Hs] _ IH];
      [reflexivity|].
    cbn in *; subst s; apply elapsed_leb in Hle; rewrite Hle; exact IH.
  Qed.

  (** The loop iterating once per clock unit from instant [from], reading
      the cell as the environment [env] has it at that instant. *)
Fixpoint ticks (env : Z -> State.t T) (from : Z) (n : nat) : list (Z * State.t T) :=
    match n with
    | O => []
    | S n => (from, env from) :: ticks env (from + 1) n
    end.

Lemma ticks_add :
    forall env k n from,
      ticks env from (k + n) = ticks env from k ++ ticks env (from + Z.of_nat k) n.
  Proof.
    induction k as [|k IH]; intros n from; cbn.
    - now rewrite Z.add_0_r.
    - rewrite IH; do 3 f_equal; lia.
  Qed.

Lemma Forall_ticks :
    forall (P : Z * State.t T -> Prop) env k from,
      (forall i, from <= i < from + Z.of_nat k -> P (i, env i)) ->
      Forall P (ticks env from k).
  Proof.
    induction k as [|k IH]; intros from H; cbn; constructor.
    - apply H; lia.
    - apply IH; intros i Hi; apply H; lia.
  Qed.

  (** A cell that another clone fills with [v] at instant [arrival]. *)
Definition arrives_at (arrival : Z) (v : T) (t : Z) : State.t T :=
    if t <? arrival then State.UnSet else State.Value v.

  (** Two successive [wait]s of one guard while the value arrives at
      [arrival]: the first, begun at [start1] with [start1 + d < arrival],
      times out; the second, begun at [t1] with its own deadline still open
      at [arrival], returns the value. *)
Lemma repeated_wait_after_timeout :
    forall (v : T) (c : State.t T) (d : N) (start1 t1 arrival : Z) (n1 n2 : nat),
      start1 + Z.of_N d < arrival ->
      start1 + Z.of_N d < t1 <= arrival ->
      arrival <= t1 + Z.of_N d ->
      Z.of_N d + 2 <= Z.of_nat n1 ->
      arrival - t1 + 1 <= Z.of_nat n2 ->
      let g := SyncGuard.mk c {| timeout := Timeout.Duration d |} in
      SyncGuard.wait g start1 (ticks (arrives_at arrival v) start1 n1)
      = Some (Err GuardError.Timeout) /\
      SyncGuard.wait g t1 (ticks (arrives_at arrival v) t1 n2) = Some (Ok v).
  Proof.
    intros v c d start1 t1 arrival n1 n2 H1 H2 H3 H4 H5; cbn -[ticks].
    split.
    - replace n1 with (Z.to_nat (Z.of_N d + 1) + S (n1 - Z.to_nat (Z.of_N d + 2)))%nat by lia.
      rewrite ticks_add, wait_duration_skip.
      + cbn. replace (elapsed start1 _ <=? d)%N with false; [reflexivity|].
        symmetry; apply Bool.not_true_iff_false; rewrite elapsed_leb; lia.
      + apply Forall_ticks; intros i Hi; cbn; unfold arrives_at.
        split; [lia|]. replace (i <? arrival) with true; [reflexivity|].
        symmetry; apply Z.ltb_lt; lia.
    - replace n2 with (Z.to_nat (arrival - t1) + S (n2 - Z.to_nat (arrival - t1 + 1)))%nat by lia.
      rewrite ticks_add, wait_duration_skip.
      + cbn. replace (t1 + Z.of_nat (Z.to_nat (arrival - t1))) with arrival by lia.
        replace (elapsed t1 arrival <=? d)%N with true.
        * unfold arrives_at; rewrite Z.ltb_irrefl; reflexivity.
        * symmetry; apply elapsed_leb; lia.
      + apply Forall_ticks; intros i Hi; cbn; unfold arrives_at.
        split; [lia|]. replace (i <? arrival) with true; [reflexivity|].
        symmetry; apply Z.ltb_lt; lia.
  Qed.
End Blocking.

(** C3: under [Timeout::Duration d], a [SyncGuard::wait] begun at [start]
    skips the iterations that read [UnSet] within [d] of [start]; at the
    first other iteration it returns the value on [Value], fails with
    [Killed] on [Killed] if the clock is still within [d] of [start], and
    fails with [Timeout], whatever the cell holds then or later, once the
    clock is past it.  Two waits of one guard each take their own deadline:
    when the value arrives after the first has timed out but within the
    second's budget, the second returns it. *)
Theorem wait_bounded_fresh_deadline {T : Type} :
  (forall (c : State.t T) (d : N) (start now : Z) (s : State.t T)
          (pre post : list (Z * State.t T)),
      Forall (fun it => fst it - start <= Z.of_N d /\ snd it = State.UnSet) pre ->
      let g := SyncGuard.mk c {| timeout := Timeout.Duration d |} in
      (now - start <= Z.of_N d ->
       SyncGuard.wait g start (pre ++ (now, s) :: post)
       = match s with
         | State.Value v => Some (Ok v)
         | State.Killed => Some (Err GuardError.Killed)
         | State.UnSet => SyncGuard.wait g start post
         end) /\
      (Z.of_N d < now - start ->
       SyncGuard.wait g start (pre ++ (now, s) :: post)
       = Some (Err GuardError.Timeout))) /\
  (forall (v : T) (c : State.t T) (d : N) (start1 t1 arrival : Z) (n1 n2 : nat),
      start1 + Z.of_N d < arrival ->
      start1 + Z.of_N d < t1 <= arrival ->
      arrival <= t1 + Z.of_N d ->
      Z.of_N d + 2 <= Z.of_nat n1 ->
      arrival - t1 + 1 <= Z.of_nat n2 ->
      let g := SyncGuard.mk c {| timeout := Timeout.Duration d |} in
      SyncGuard.wait g start1 (ticks (arrives_at arrival v) start1 n1)
      = Some (Err GuardError.Timeout) /\
      SyncGuard.wait g t1 (ticks (arrives_at arrival v) t1 n2) = Some (Ok v)).
Proof.
  split.
  - intros c d start now s pre post Hpre; cbn -[SyncGuard.wait_duration].
    rewrite (wait_duration_skip d start pre ((now, s) :: post) Hpre).
    split; intros H; cbn.
    + apply elapsed_leb in H; rewrite H; reflexivity.
    + replace (elapsed start now <=? d)%N with false; [reflexivity|].
      symmetry; apply Bool.not_true_iff_false; rewrite elapsed_leb; lia.
  - exact repeated_wait_after_timeout.
Qed.

(** The scenario of the crate's [test_wait_for_value_with_multiple_timout]:
    budget 60, value 42 set at instant 100; the first wait begins at 0,
    the second at 61. *)
Lemma wait_bounded_fresh_deadline_witness :
  let g := SyncGuard.mk (T := Z) State.UnSet {| timeout := Timeout.Duration 60 |} in
  SyncGuard.wait g 0 (ticks (arrives_at 100 42) 0 100) = Some (Err GuardError.Timeout) /\
  SyncGuard.wait g 61 (ticks (arrives_at 100 42) 61 100) = Some (Ok 42).
Proof.
  exact (proj2 (@wait_bounded_fresh_deadline Z) 42 State.UnSet 60%N 0 61 100 100%nat 100%nat
           ltac:(lia) ltac:(lia) ltac:(lia) ltac:(lia) ltac:(lia)).
Defined.

Lemma set_reset_roundtrip_witness :
  SyncGuard.value (SyncGuard.mk (T := Z) State.UnSet GuardConfig_default) <> State.Killed /\
  SyncGuard.reset (snd (SyncGuard.set (SyncGuard.mk (T := Z) State.UnSet GuardConfig_default) 7))
  = (Ok (Some 7), SyncGuard.mk State.UnSet GuardConfig_default).
Proof.
  split; [discriminate|].
  exact (proj1 (@set_reset_roundtrip Z) (SyncGuard.mk State.UnSet GuardConfig_default) 7
           ltac:(discriminate)).
Defined.

(** ** Sequences of mutating calls by one caller

    The crate's tests drive a guard through sequences of [set], [kill] and
    [reset] calls ([test_killed_an_elapsed_guard],
    [test_resetting_a_value]).  [run_sync] and [run_async] perform such a
    sequence on one guard and collect the results. *)

Section Sequences.
  Context {T : Type}.

Inductive op : Type :=
  | OpSet (v : T)
  | OpKill
  | OpReset.

  (** The result of one call: [set] and [kill] return [Result<(), _>],
      [reset] returns [Result<Option<T>, _>]. *)
Inductive outcome : Type :=
  | UnitResult (r : Result unit GuardError.t)
  | ResetResult (r : Result (option T) GuardError.t).

Definition step_sync (g : SyncGuard.t T) (o : op) : outcome * SyncGuard.t T :=
    match o with
    | OpSet v => let '(r, g) := SyncGuard.set g v in (UnitResult r, g)
    | OpKill => let '(r, g) := SyncGuard.kill g in (UnitResult r, g)
    | OpReset => let '(r, g) := SyncGuard.reset g in (ResetResult r, g)
    end.

Definition step_async (g : AsyncGuard.t T) (o : op) : outcome * AsyncGuard.t T :=
    match o with
    | OpSet v => let '(r, g) := AsyncGuard.set g v in (UnitResult r, g)
    | OpKill => let '(r, g) := AsyncGuard.kill g in (UnitResult r, g)
    | OpReset => let '(r, g) := AsyncGuard.reset g in (ResetResult r, g)
    end.

Fixpoint run_sync (g : SyncGuard.t T) (ops : list op) : list outcome * SyncGuard.t T :=
    match ops with
    | [] => ([], g)
    | o :: ops =>
        let '(r, g) := step_sync g o in
        let '(rs, g) := run_sync g ops in (r :: rs, g)
    end.

Fixpoint run_async (g : AsyncGuard.t T) (ops : list op) : list outcome * AsyncGuard.t T :=
    match ops with
    | [] => ([], g)
    | o :: ops =>
        let '(r, g) := step_async g o in
        let '(rs, g) := run_async g ops in (r :: rs, g)
    end.

  (** The value a cell holding [v] holds after [ops] when no [reset] and
      no failed [set] intervenes: the argument of the last [set]. *)
Fixpoint last_set (v : T) (ops : list op) : T :=
    match ops with
    | [] => v
    | OpSet w :: ops => last_set w ops
    | _ :: ops => last_set v ops
    end.

  (** X1: a [Killed] cell stays [Killed] through any sequence of [set],
      [kill] and [reset] calls on either flavor; in particular [reset]
      does not revive it. *)
Theorem killed_is_absorbing :
    (forall (ops : list op) (c : GuardConfig),
        SyncGuard.value (snd (run_sync (SyncGuard.mk State.Killed c) ops)) = State.Killed) /\
    (forall (ops : list op) (c : GuardConfig) (m : option Z),
        AsyncGuard.value (snd (run_async (AsyncGuard.mk State.Killed c m) ops))
        = State.Killed).
  Proof.
    split.
    - induction ops as [|o ops IH]; intros c; [reflexivity|].
      specialize (IH c).
      destruct o; cbn; destruct (run_sync _ ops); exact IH.
    - induction ops as [|o ops IH]; intros c m; [reflexivity|].
      specialize (IH c m).
      destruct o; cbn; destruct (run_async _ ops); exact IH.
  Qed.

  (** X2: without [reset], a cell holding a value keeps holding one: every
      [kill] in the sequence fails with [UnableToKilled], and at the end the
      cell holds the argument of the last [set] (or the original value). *)
Theorem value_kept_without_reset :
    forall (ops : list op) (v : T) (c : GuardConfig),
      ~ In OpReset ops ->
      let '(rs, g) := run_sync (SyncGuard.mk (State.Value v) c) ops in
      SyncGuard.value g = State.Value (last_set v ops) /\
      (forall i, nth_error ops i = Some OpKill ->
                 nth_error rs i = Some (UnitResult (Err GuardError.UnableToKilled))).
  Proof.
    induction ops as [|o ops IH]; intros v c Hno; cbn.
    - split; [reflexivity|]. intros [|i]; discriminate.
    - destruct o as [w| |]; cbn.
      + specialize (IH w c (fun H => Hno (or_intror H))).
        destruct (run_sync _ ops) as [rs g]; destruct IH as [IH1 IH2].
        split; [exact IH1|]. intros [|i]; cbn; [discriminate|]. apply IH2.
      + specialize (IH v c (fun H => Hno (or_intror H))).
        destruct (run_sync _ ops) as [rs g]; destruct IH as [IH1 IH2].
        split; [exact IH1|]. intros [|i]; cbn; [reflexivity|]. apply IH2.
      + exfalso; apply Hno; left; reflexivity.
  Qed.

  (** X3: the two flavors agree on whole sequences of mutating calls: from
      the same cell and configuration they return the same results and end
      in the same cell, and the cooperative guard's marker is untouched. *)
Theorem run_sync_async_agree :
    forall (ops : list op) (s : State.t T) (c : GuardConfig) (m : option Z),
      fst (run_sync (SyncGuard.mk s c) ops) = fst (run_async (AsyncGuard.mk s c m) ops) /\
      SyncGuard.value (snd (run_sync (SyncGuard.mk s c) ops))
      = AsyncGuard.value (snd (run_async (AsyncGuard.mk s c m) ops)) /\
      SyncGuard.config (snd (run_sync (SyncGuard.mk s c) ops)) = c /\
      AsyncGuard.config (snd (run_async (AsyncGuard.mk s c m) ops)) = c /\
      AsyncGuard.t0 (snd (run_async (AsyncGuard.mk s c m) ops)) = m.
  Proof.
    induction ops as [|o ops IH]; intros s c m; [repeat split|].
    assert (Hstep : exists r s', step_sync (SyncGuard.mk s c) o = (r, SyncGuard.mk s' c) /\
                                 step_async (AsyncGuard.mk s c m) o = (r, AsyncGuard.mk s' c m))
      by (destruct o; destruct s; cbn; eauto).
    destruct Hstep as (r & s' & Hs & Ha); cbn; rewrite Hs, Ha.
    destruct (IH s' c m) as (H1 & H2 & H3 & H4 & H5).
    destruct (run_sync _ ops) as [rs g]; destruct (run_async _ ops) as [ra ga]; cbn in *.
    subst; repeat split; assumption.
  Qed.
End Sequences.

(** ** Waiting when no other clone touches the cell *)

Section Alone.
  Context {T : Type}.

  (** [SyncGuard::wait] on a guard whose cell no other clone changes
      during the call: [n] iterations of the loop, one per clock unit from
      the call's start. *)
Definition wait_alone (g : SyncGuard.t T) (start : Z) (n : nat)
    : option (Result T GuardError.t) :=
    SyncGuard.wait g start (ticks (fun _ => SyncGuard.value g) start n).

Lemma wait_infinite_unset_ticks :
    forall (n : nat) (from : Z),
      SyncGuard.wait_infinite (map snd (ticks (T := T) (fun _ => State.UnSet) from n)) = None.
  Proof. induction n as [|n IH]; intros from; [reflexivity|]. exact (IH (from + 1)). Qed.

  (** X4: with no producer (the cell stays [UnSet]), a [Timeout::Infinite]
      wait never returns; a [Timeout::Duration d] wait is still looping
      after [d + 1] iterations and fails with [Timeout] at iteration
      [d + 2]; a [Timeout::Instant] wait fails with [Timeout] at once. *)
Theorem wait_without_producer :
    (forall (start : Z) (n : nat),
        wait_alone (SyncGuard.mk State.UnSet GuardConfig_default) start n = None) /\
    (forall (d : N) (start : Z) (n : nat),
        Z.of_nat n <= Z.of_N d + 1 ->
        wait_alone (SyncGuard.mk State.UnSet {| timeout := Timeout.Duration d |}) start n
        = None) /\
    (forall (d : N) (start : Z) (n : nat),
        Z.of_N d + 2 <= Z.of_nat n ->
        wait_alone (SyncGuard.mk State.UnSet {| timeout := Timeout.Duration d |}) start n
        = Some (Err GuardError.Timeout)) /\
    (forall (start : Z) (n : nat),
        wait_alone (SyncGuard.mk State.UnSet {| timeout := Timeout.Instant |}) start (S n)
        = Some (Err GuardError.Timeout)).
  Proof.
    unfold wait_alone; split; [|split; [|split]].
    - intros start n; exact (wait_infinite_unset_ticks n start).
    - intros d start n H; cbn -[ticks SyncGuard.wait_duration].
      rewrite <- (app_nil_r (ticks _ start n)), wait_duration_skip; [reflexivity|].
      apply Forall_ticks; intros i Hi; cbn; split; [lia|reflexivity].
    - intros d start n H; cbn -[ticks SyncGuard.wait_duration].
      replace n with (Z.to_nat (Z.of_N d + 1) + S (n - Z.to_nat (Z.of_N d + 2)))%nat by lia.
      rewrite ticks_add, wait_duration_skip.
      + cbn. replace (elapsed start _ <=? d)%N with false; [reflexivity|].
        symmetry; apply Bool.not_true_iff_false; rewrite elapsed_leb; lia.
      + apply Forall_ticks; intros i Hi; cbn; split; [lia|reflexivity].
    - intros start n; reflexivity.
  Qed.
End Alone.

(** What one iteration of the [Timeout::Duration] loop of
    [SyncGuard::wait] decides: [None] when it goes round again. *)
Definition iteration_decides {T : Type} (timeout : N) (t0 : Z) (it : Z * State.t T)
  : option (Result T GuardError.t) :=
  let '(now, s) := it in
  if (elapsed t0 now <=? timeout)%N then
    match s with
    | State.Value v => Some (Ok v)
    | State.Killed => Some (Err GuardError.Killed)
    | State.UnSet => None
    end
  else Some (Err GuardError.Timeout).

(** X5: the [Timeout::Duration] loop returns exactly what its first
    deciding iteration decides: it returns [r] iff some iteration decides
    [r] (a [Value] or [Killed] read within the budget, or a clock reading
    past it) and every earlier iteration read [UnSet] within the budget;
    it is still looping iff no iteration decided.  In particular [Timeout]
    is never reported before the clock is past the budget. *)
Theorem wait_duration_first_decision {T : Type} :
  forall (d : N) (start : Z) (iters : list (Z * State.t T)),
    (forall r, SyncGuard.wait_duration d start iters = Some r <->
       exists pre it post, iters = pre ++ it :: post /\
         Forall (fun it => iteration_decides d start it = None) pre /\
         iteration_decides d start it = Some r) /\
    (SyncGuard.wait_duration d start iters = None <->
       Forall (fun it => iteration_decides d start it = None) iters).
Proof.
  intros d start iters.
  assert (Hstep : forall (it : Z * State.t T) rest,
             SyncGuard.wait_duration d start (it :: rest)
             = match iteration_decides d start it with
               | Some r => Some r
               | None => SyncGuard.wait_duration d start rest
               end)
    by (intros [now s] rest; cbn; destruct (elapsed start now <=? d)%N;
        [destruct s|]; reflexivity).
  induction iters as [|it rest [IH1 IH2]].
  - split; [intros r; split|split]; cbn.
    + discriminate.
    + intros (pre & it & post & E & _); destruct pre; discriminate.
    + constructor.
    + reflexivity.
  - rewrite Hstep; split; [intros r; split|split].
    + destruct (iteration_decides d start it) as [r'|] eqn:Hit.
      * intros [= <-]; exists [], it, rest; auto.
      * intros H; apply IH1 in H; destruct H as (pre & it' & post & E & Hpre & Hd).
        exists (it :: pre), it', post; subst.
        split; [reflexivity | split; [constructor; assumption | exact Hd]].
    + intros (pre & it' & post & E & Hpre & Hd).
      destruct pre as [|p pre]; cbn in E; injection E as <- E.
      * rewrite Hd; reflexivity.
      * inversion Hpre as [|? ? Hp Hpre']; subst; rewrite Hp.
        apply IH1; exists pre, it', post; split; [reflexivity | split; assumption].
    + destruct (iteration_decides d start it) eqn:Hit; [discriminate|].
      intros H; constructor; [exact Hit|]; apply IH2; exact H.
    + intros H; inversion H as [|? ? Hit Hrest]; subst; rewrite Hit.
      apply IH2; exact Hrest.
Qed.

(** ** One observation on either flavor *)

Section Flavors.
  Context {T : Type}.

  (** X6: a cooperative [poll] makes the decision of one iteration of the
      blocking loop on the same cell: under [Timeout::Instant] both return
      the same result; under [Timeout::Duration d], with the blocking call's
      start equal to the cooperative marker and the same clock reading, the
      poll is [Ready r] when that iteration returns [r] and [Pending] when
      the loop would read again. *)
Theorem poll_is_one_loop_iteration :
    (forall (s c : State.t T) (m : option Z) (start now now_init now_check : Z)
            (rest : list (Z * State.t T)),
        fst (fst (AsyncGuard.poll (AsyncGuard.mk s {| timeout := Timeout.Instant |} m)
                    now_init now_check))
        = match SyncGuard.wait (SyncGuard.mk c {| timeout := Timeout.Instant |})
                  start ((now, s) :: rest) with
          | Some r => Ready r
          | None => Pending
          end) /\
    (forall (s : State.t T) (d : N) (x now_init now : Z),
        fst (fst (AsyncGuard.poll
                    (AsyncGuard.mk s {| timeout := Timeout.Duration d |} (Some x))
                    now_init now))
        = match iteration_decides d x (now, s) with
          | Some r => Ready r
          | None => Pending
          end).
  Proof.
    split; intros s; intros; cbn; [destruct s; reflexivity|].
    destruct (elapsed x now <=? d)%N; [destruct s|]; reflexivity.
  Qed.

  (** X7: used by one caller under [Timeout::Instant], a new guard of
      either flavor reports [Timeout], then after [set(v)] returns [v], and
      after [reset()] (which hands back [Some v]) reports [Timeout] again. *)
Theorem instant_set_reset_cycle :
    forall (v : T) (start : Z) (n : nat) (now_init now_check : Z),
      let c := {| timeout := Timeout.Instant |} in
      (let g0 := SyncGuard.new c in
       let g1 := snd (SyncGuard.set g0 v) in
       let g2 := snd (SyncGuard.reset g1) in
       wait_alone g0 start (S n) = Some (Err GuardError.Timeout) /\
       fst (SyncGuard.set g0 v) = Ok tt /\
       wait_alone g1 start (S n) = Some (Ok v) /\
       fst (SyncGuard.reset g1) = Ok (Some v) /\
       wait_alone g2 start (S n) = Some (Err GuardError.Timeout)) /\
      (let g0 := AsyncGuard.new c in
       let g1 := snd (AsyncGuard.set g0 v) in
       let g2 := snd (AsyncGuard.reset g1) in
       fst (fst (AsyncGuard.poll g0 now_init now_check)) = Ready (Err GuardError.Timeout) /\
       fst (AsyncGuard.set g0 v) = Ok tt /\
       fst (fst (AsyncGuard.poll g1 now_init now_check)) = Ready (Ok v) /\
       fst (AsyncGuard.reset g1) = Ok (Some v) /\
       fst (fst (AsyncGuard.poll g2 now_init now_check)) = Ready (Err GuardError.Timeout)).
  Proof. intros; repeat split. Qed.
End Flavors.

(** ** Successive polls of the cooperative guard by one task *)

Section PollSequence.
  Context {T : Type}.

  (** What happens to the guard between polls: a poll with its two clock
      readings, or a mutating call. *)
Inductive async_event : Type :=
  | EvPoll (now_init now_check : Z)
  | EvOp (o : @op T).

  (** Runs the events in order; collects the outcome of every poll. *)
Fixpoint run_events (g : AsyncGuard.t T) (es : list async_event)
    : list (Poll (Result T GuardError.t)) * AsyncGuard.t T :=
    match es with
    | [] => ([], g)
    | EvPoll a b :: es =>
        let '(p, _, g) := AsyncGuard.poll g a b in
        let '(ps, g) := run_events g es in (p :: ps, g)
    | EvOp o :: es =>
        let '(_, g) := step_async g o in run_events g es
    end.

Definition poll_not_before (c : Z) (e : async_event) : Prop :=
    match e with
    | EvPoll _ b => c <= b
    | EvOp _ => True
    end.

  (** X8: in a single-task run, once the marker [x] of a [Timeout::Duration
      d] guard is more than [d] behind the clock reading [c], every later
      poll whose clock reading is not before [c] returns [Timeout], whatever
      [set], [kill] or [reset] calls come in between; the marker keeps its
      value. *)
Theorem polls_after_timeout_stay_timeout :
    forall (es : list async_event) (s : State.t T) (d : N) (x c : Z),
      (d < elapsed x c)%N ->
      Forall (poll_not_before c) es ->
      let g := AsyncGuard.mk s {| timeout := Timeout.Duration d |} (Some x) in
      Forall (fun p => p = Ready (Err GuardError.Timeout)) (fst (run_events g es)) /\
      AsyncGuard.t0 (snd (run_events g es)) = Some x /\
      AsyncGuard.config (snd (run_events g es)) = {| timeout := Timeout.Duration d |}.
  Proof.
    intros es; induction es as [|e es IH]; intros s d x c Hx Hes; cbn.
    - repeat split; constructor.
    - inversion Hes as [|? ? He Hes']; subst.
      destruct e as [a b | o]; cbn in He.
      + assert (Hb : (elapsed x b <=? d)%N = false).
        { apply N.leb_gt; unfold elapsed in *; lia. }
        rewrite Hb.
        destruct (IH s d x c Hx Hes') as (H1 & H2 & H3).
        destruct (run_events _ es) as [ps g']; cbn in *.
        split; [constructor; [reflexivity | exact H1] | split; assumption].
      + destruct (step_async (AsyncGuard.mk s {| timeout := Timeout.Duration d |} (Some x)) o)
          as [r g1] eqn:Hstep.
        assert (Hg1 : exists s1, g1 = AsyncGuard.mk s1 {| timeout := Timeout.Duration d |} (Some x)).
        { destruct o; destruct s; cbn in Hstep; injection Hstep as _ <-; eexists; reflexivity. }
        destruct Hg1 as [s1 ->].
        exact (IH s1 d x c Hx Hes').
  Qed.
End PollSequence.

(** ** Witnesses *)

Lemma value_kept_without_reset_witness :
  ~ In OpReset [OpSet 5; OpKill; OpSet 6] /\
  let '(rs, g) := run_sync (SyncGuard.mk (State.Value 1) GuardConfig_default)
                    [OpSet 5; OpKill; OpSet 6] in
  SyncGuard.value g = State.Value (last_set 1 [OpSet 5; OpKill; OpSet 6]) /\
  (forall i, nth_error [OpSet 5; OpKill; OpSet 6] i = Some OpKill ->
             nth_error rs i = Some (UnitResult (Err GuardError.UnableToKilled))).
Proof.
  assert (H : ~ In (@OpReset Z) [OpSet 5; OpKill; OpSet 6])
    by (cbn; intros [H|[H|[H|H]]]; [discriminate H..|exact H]).
  exact (conj H (value_kept_without_reset [OpSet 5; OpKill; OpSet 6] 1 GuardConfig_default H)).
Defined.

Lemma wait_without_producer_witness :
  Z.of_nat 4 <= Z.of_N 3 + 1 /\
  wait_alone (T := Z) (SyncGuard.mk State.UnSet {| timeout := Timeout.Duration 3 |}) 0 4 = None /\
  Z.of_N 3 + 2 <= Z.of_nat 5 /\
  wait_alone (T := Z) (SyncGuard.mk State.UnSet {| timeout := Timeout.Duration 3 |}) 0 5
  = Some (Err GuardError.Timeout).
Proof.
  destruct (@wait_without_producer Z) as (_ & H2 & H3 & _).
  split; [lia|]. split; [exact (H2 3%N 0 4%nat ltac:(lia))|].
  split; [lia|]. exact (H3 3%N 0 5%nat ltac:(lia)).
Defined.

Lemma polls_after_timeout_stay_timeout_witness :
  (50 < elapsed 0 60)%N /\
  Forall (poll_not_before 60) [EvOp (OpSet 7); EvPoll 0 100] /\
  let g := AsyncGuard.mk State.UnSet {| timeout := Timeout.Duration 50 |} (Some 0) in
  Forall (fun p => p = Ready (Err GuardError.Timeout))
    (fst (run_events g [EvOp (OpSet 7); EvPoll 0 100])) /\
  AsyncGuard.t0 (snd (run_events g [EvOp (OpSet 7); EvPoll 0 100])) = Some 0 /\
  AsyncGuard.config (snd (run_events g [EvOp (OpSet 7); EvPoll 0 100]))
  = {| timeout := Timeout.Duration 50 |}.
Proof.
  assert (Hx : (50 < elapsed 0 60)%N) by reflexivity.
  assert (Hes : Forall (poll_not_before 60) [@EvOp Z (OpSet 7); EvPoll 0 100])
    by (repeat constructor; cbn; lia).
  exact (conj Hx (conj Hes
    (polls_after_timeout_stay_timeout [EvOp (OpSet 7); EvPoll 0 100] State.UnSet 50 0 60 Hx Hes))).
Defined.
